(** * MaxText/layers/deepseek.py: the DeepSeek-V3 decoder layer

    A shallow embedding of [DeepSeekDecoderLayer.__call__].  The layer is
    glue: it wires normalisation, multi-head latent attention, MLP and
    mixture-of-experts blocks together.  Those blocks, the sharding
    annotation and the array primitives live in other modules; they enter
    here through the interface [Framework].  What the layer does on top of
    them (the order of the calls, the arguments it hands over, what it
    sows and what it returns) is modelled in a state monad whose store
    holds the trace of framework calls and the sown variables. *)

From Stdlib Require Import String ZArith QArith Bool Lia Floats List.
From ExtLib Require Import Structures.Monad Structures.MonadState.
From ExtLib Require Import Data.Monads.StateMonad.
Import ListNotations.
Import MonadNotation.
Local Open Scope string_scope.
Local Open Scope Z_scope.
Local Open Scope list_scope.
Local Open Scope monad_scope.

Set Implicit Arguments.

(** ** Python values of the configuration *)

(** A Python [float] is an IEEE binary64 number. *)
Definition PyFloat : Type := float.

(** A Python [int] is unbounded. *)
Definition PyInt : Type := Z.

(** ** The collaborators

    Everything [deepseek.py] imports.  A Flax module is built from keyword
    arguments and then applied; its parameters, random streams and caches
    are fixed by the enclosing [apply], so a built module is a function of
    the arrays it is applied to. *)

Class Types : Type := {
  Tensor : Type;        (* a jax Array of activations *)
  Elem : Type;          (* one entry of such an array *)
  Scalar : Type;        (* a rank-0 floating-point array *)
  DType : Type;
  Mesh : Type;
  Quant : Type;         (* quantizations.AqtQuantization *)
  KVQuant : Type;
  Initializer : Type;
  Positions : Type;     (* decoder_positions *)
  SegmentIds : Type;    (* decoder_segment_ids *)
  MoeAux : Type;        (* second component of MoeBlock's result *)
  OtherSettings : Type  (* the configuration fields this file never reads *)
}.

Section Layer.
Context {T : Types}.

(** [models.Config]: the fields read in this file, and the rest. *)
Record Config : Type := {
  dtype : DType;
  weight_dtype : DType;
  normalization_layer_epsilon : PyFloat;
  num_query_heads : PyInt;
  q_lora_rank : PyInt;
  kv_lora_rank : PyInt;
  qk_nope_head_dim : PyInt;
  qk_rope_head_dim : PyInt;
  head_dim : PyInt;
  max_target_length : PyInt;
  max_prefill_predict_length : PyInt;
  attention : string;
  mlp_dim : PyInt;
  num_experts : PyInt;
  num_experts_per_tok : PyInt;
  num_shared_experts : PyInt;
  mlp_activations : list string;
  dropout_rate : PyFloat;
  record_internal_nn_metrics : bool;
  scan_layers : bool;
  other_settings : OtherSettings
}.

(** Keyword arguments of [models.RMSNorm(...)]. *)
Record RMSNormArgs : Type := {
  rms_dtype : DType;
  rms_weight_dtype : DType;
  rms_name : string;
  rms_kernel_axes : list string;
  rms_epsilon : PyFloat
}.

(** Keyword arguments of [attentions.MLA(...)]. *)
Record MLAArgs : Type := {
  mla_config : Config;
  mla_num_heads : PyInt;
  mla_q_lora_rank : PyInt;
  mla_kv_lora_rank : PyInt;
  mla_qk_nope_head_dim : PyInt;
  mla_qk_rope_head_dim : PyInt;
  mla_v_head_dim : PyInt;
  mla_max_target_length : PyInt;
  mla_max_prefill_predict_length : PyInt;
  mla_attention_kernel : string;
  mla_mesh : Mesh;
  mla_dtype : DType;
  mla_weight_dtype : DType;
  mla_name : string;
  mla_quant : option Quant;
  mla_kv_quant : KVQuant
}.

(** Keyword arguments of [linears.MlpBlock(...)]. *)
Record MlpBlockArgs : Type := {
  mlp_intermediate_dim : PyInt;
  mlp_activations_arg : list string;
  mlp_intermediate_dropout_rate : PyFloat;
  mlp_dtype : DType;
  mlp_weight_dtype : DType;
  mlp_name : string;
  mlp_config : Config;
  mlp_quant : option Quant
}.

(** Keyword arguments of [linears.MoeBlock(...)]. *)
Record MoeBlockArgs : Type := {
  moe_config : Config;
  moe_num_experts : PyInt;
  moe_num_experts_per_tok : PyInt;
  moe_mesh : Mesh;
  moe_kernel_init : Initializer;
  moe_kernel_axes : list (option string);
  moe_dtype : DType;
  moe_weight_dtype : DType;
  moe_quant : option Quant
}.

(** The functions behind the imported names. *)
Class Framework : Type := {
  (* [a + b] on arrays *)
  add : Tensor -> Tensor -> Tensor;
  (* the array returned by [nn.with_logical_constraint(x, axes)] *)
  constrained : Tensor -> list string -> Tensor;
  (* the array returned by [checkpoint_name(x, name)] *)
  named : Tensor -> string -> Tensor;
  RMSNorm : RMSNormArgs -> Tensor -> Tensor;
  MLA : MLAArgs -> Tensor -> Tensor -> Positions -> SegmentIds -> bool ->
        string -> Tensor;
  MlpBlock : MlpBlockArgs -> Tensor -> bool -> Tensor;
  MoeBlock : MoeBlockArgs -> Tensor -> Tensor * MoeAux;
  configure_kv_quant : Config -> KVQuant;
  nd_dense_init : PyFloat -> string -> string -> Initializer;
  jnp_mean : Tensor -> Scalar;
  jnp_std : Tensor -> Scalar;
  (* the entries of an array, flattened *)
  entries : Tensor -> list Elem;
  (* [e == 0] on one entry *)
  eq_zero : Elem -> bool
}.

Context {F : Framework}.

(** Line 28: [Attention = attentions.MLA]. *)
Definition Attention := MLA.

(** ** Array primitives used for the metrics *)

(** [x == 0]: the boolean mask, flattened. *)
Definition jnp_eq_zero (x : Tensor) : list bool := List.map eq_zero (entries x).

(** A 32-bit signed integer: arithmetic wraps around. *)
Definition wrap_int32 (z : Z) : Z := (z + 2 ^ 31) mod 2 ^ 32 - 2 ^ 31.

(** [jnp.sum] of a boolean mask: the number of [True] entries, added up
    in [int32]. *)
Fixpoint jnp_sum (mask : list bool) : Z :=
  match mask with
  | [] => 0
  | b :: rest => wrap_int32 ((if b then 1 else 0) + jnp_sum rest)
  end.

(** [jnp.size]. *)
Definition jnp_size (x : Tensor) : Z := Z.of_nat (List.length (entries x)).

(** *** IEEE binary32

    [int32_array / python_int] divides in [float32]: both operands are
    converted to [float32] and the quotient is rounded to [float32], to
    nearest with ties to even. *)

(** A [float32]: [m * 2 ^ e], an infinity, or no number.  A zero stands
    for either signed zero. *)
Inductive Float32 : Type :=
| F32_finite (m e : Z)
| F32_infinite (negative : bool)
| F32_nan.

(** [n / d] rounded to the nearest integer, ties to even ([0 <= n],
    [0 < d]). *)
Definition round_half_even (n d : Z) : Z :=
  let m := n / d in
  let r := n mod d in
  if 2 * r <? d then m
  else if d <? 2 * r then m + 1
  else if Z.even m then m else m + 1.

(** The exponent [k] with [2 ^ k <= n / d < 2 ^ (k + 1)] ([0 < n],
    [0 < d]). *)
Definition binade (n d : Z) : Z :=
  let k := Z.log2 n - Z.log2 d in
  if d * 2 ^ Z.max 0 k <=? n * 2 ^ Z.max 0 (- k) then k else k - 1.

(** The [float32] nearest to [n / d] ([0 < n], [0 < d]): 24 significant
    bits, the last of them no finer than [2 ^ -149], and an infinity from
    [2 ^ 128] on. *)
Definition float32_round_pos (n d : Z) : Float32 :=
  let e := Z.max (binade n d - 23) (-149) in
  let m := round_half_even (n * 2 ^ Z.max 0 (- e)) (d * 2 ^ Z.max 0 e) in
  if (0 <=? e) && (2 ^ 128 <=? m * 2 ^ e) then F32_infinite false
  else F32_finite m e.

Definition float32_opp (x : Float32) : Float32 :=
  match x with
  | F32_finite m e => F32_finite (- m) e
  | F32_infinite s => F32_infinite (negb s)
  | F32_nan => F32_nan
  end.

(** The [float32] nearest to [n / d] ([0 < d]). *)
Definition float32_round (n d : Z) : Float32 :=
  match n with
  | Z0 => F32_finite 0 0
  | Zpos _ => float32_round_pos n d
  | Zneg _ => float32_opp (float32_round_pos (- n) d)
  end.

Definition float32_of_int (z : Z) : Float32 := float32_round z 1.

Definition float32_div (x y : Float32) : Float32 :=
  match x, y with
  | F32_nan, _ | _, F32_nan => F32_nan
  | F32_infinite _, F32_infinite _ => F32_nan
  | F32_infinite s, F32_finite m _ => F32_infinite (xorb s (m <? 0))
  | F32_finite _ _, F32_infinite _ => F32_finite 0 0
  | F32_finite m1 e1, F32_finite m2 e2 =>
      match m2 with
      | Z0 => match m1 with
              | Z0 => F32_nan
              | Zpos _ => F32_infinite false
              | Zneg _ => F32_infinite true
              end
      | _ => float32_round (Z.sgn m2 * m1 * 2 ^ Z.max 0 (e1 - e2))
                           (Z.abs m2 * 2 ^ Z.max 0 (e2 - e1))
      end
  end.

(** The value of a float: a rational in lowest terms, an infinity or no
    number. *)
Inductive Quotient : Type :=
| Finite (q : Q)
| Infinite (negative : bool)
| NotANumber.

Definition float32_value (x : Float32) : Quotient :=
  match x with
  | F32_finite m e =>
      Finite (Qred (m * 2 ^ Z.max 0 e # Z.to_pos (2 ^ Z.max 0 (- e))))
  | F32_infinite s => Infinite s
  | F32_nan => NotANumber
  end.

(** [a / b] for an [int32] array entry [a] and a Python int [b]. *)
Definition true_divide (a b : Z) : Quotient :=
  float32_value (float32_div (float32_of_int a) (float32_of_int b)).

(** ** The store: framework calls and sown variables *)

Inductive Event : Type :=
| E_with_logical_constraint (x : Tensor) (axes : list string)
| E_checkpoint_name (x : Tensor) (name : string)
| E_RMSNorm (args : RMSNormArgs) (x : Tensor)
| E_MLA (args : MLAArgs) (inputs_q inputs_kv : Tensor)
        (positions : Positions) (segment_ids : SegmentIds)
        (deterministic : bool) (model_mode : string)
| E_MlpBlock (args : MlpBlockArgs) (x : Tensor) (deterministic : bool)
| E_MoeBlock (args : MoeBlockArgs) (x : Tensor).

Inductive Sown : Type :=
| SownScalar (s : Scalar)
| SownQuotient (q : Quotient).

(** One [self.sow(col, name, value)]. *)
Record SowEntry : Type := {
  sow_col : string;
  sow_name : string;
  sow_value : Sown
}.

Record Store : Type := {
  trace : list Event;
  variables : list SowEntry
}.

Definition empty_store : Store := {| trace := []; variables := [] |}.

Definition M : Type -> Type := state Store.

Definition emit (e : Event) : M unit :=
  s <- get ;;
  put {| trace := trace s ++ [e]; variables := variables s |}.

(** [self.sow(col, name, v)]: the store keeps every such call, in order
    (Flax keeps the value when the collection is mutable in the enclosing
    [apply]). *)
Definition sow (col name : string) (v : Sown) : M unit :=
  s <- get ;;
  put {| trace := trace s;
         variables := variables s ++
           [{| sow_col := col; sow_name := name; sow_value := v |}] |}.

Definition with_logical_constraint (x : Tensor) (axes : list string)
  : M Tensor :=
  emit (E_with_logical_constraint x axes) ;;
  ret (constrained x axes).

Definition checkpoint_name (x : Tensor) (name : string) : M Tensor :=
  emit (E_checkpoint_name x name) ;;
  ret (named x name).

Definition call_RMSNorm (args : RMSNormArgs) (x : Tensor) : M Tensor :=
  emit (E_RMSNorm args x) ;;
  ret (RMSNorm args x).

Definition call_Attention (args : MLAArgs) (inputs_q inputs_kv : Tensor)
    (positions : Positions) (segment_ids : SegmentIds)
    (deterministic : bool) (model_mode : string) : M Tensor :=
  emit (E_MLA args inputs_q inputs_kv positions segment_ids deterministic
              model_mode) ;;
  ret (Attention args inputs_q inputs_kv positions segment_ids deterministic
                 model_mode).

Definition call_MlpBlock (args : MlpBlockArgs) (x : Tensor)
    (deterministic : bool) : M Tensor :=
  emit (E_MlpBlock args x deterministic) ;;
  ret (MlpBlock args x deterministic).

Definition call_MoeBlock (args : MoeBlockArgs) (x : Tensor)
  : M (Tensor * MoeAux) :=
  emit (E_MoeBlock args x) ;;
  ret (MoeBlock args x).

(** ** The layer *)

Record DeepSeekDecoderLayer : Type := {
  config : Config;
  mesh : Mesh;
  quant : option Quant
}.

(** The axis names of every sharding constraint in the file. *)
Definition activation_axes : list string :=
  ["activation_batch"; "activation_norm_length"; "activation_embed"].

(** Lines 59-65. *)
Definition pre_self_attention_layer_norm (cfg : Config) : RMSNormArgs :=
  {| rms_dtype := dtype cfg;
     rms_weight_dtype := weight_dtype cfg;
     rms_name := "pre_self_attention_layer_norm";
     rms_kernel_axes := ["norm"];
     rms_epsilon := normalization_layer_epsilon cfg |}.

(** Lines 71-88. *)
Definition attention_layer (self : DeepSeekDecoderLayer) : MLAArgs :=
  let cfg := config self in
  {| mla_config := cfg;
     mla_num_heads := num_query_heads cfg;
     mla_q_lora_rank := q_lora_rank cfg;
     mla_kv_lora_rank := kv_lora_rank cfg;
     mla_qk_nope_head_dim := qk_nope_head_dim cfg;
     mla_qk_rope_head_dim := qk_rope_head_dim cfg;
     mla_v_head_dim := head_dim cfg;
     mla_max_target_length := max_target_length cfg;
     mla_max_prefill_predict_length := max_prefill_predict_length cfg;
     mla_attention_kernel := attention cfg;
     mla_mesh := mesh self;
     mla_dtype := dtype cfg;
     mla_weight_dtype := weight_dtype cfg;
     mla_name := "self_attention";
     mla_quant := quant self;
     mla_kv_quant := configure_kv_quant cfg |}.

(** Lines 105-110. *)
Definition post_self_attention_layer_norm (cfg : Config) : RMSNormArgs :=
  {| rms_dtype := dtype cfg;
     rms_weight_dtype := weight_dtype cfg;
     rms_name := "post_self_attention_layer_norm";
     rms_kernel_axes := ["norm"];
     rms_epsilon := normalization_layer_epsilon cfg |}.

(** Lines 117-125: the block of the dense branch. *)
Definition dense_mlp (self : DeepSeekDecoderLayer) : MlpBlockArgs :=
  let cfg := config self in
  {| mlp_intermediate_dim :=
       (mlp_dim cfg * (num_experts_per_tok cfg + num_shared_experts cfg))%Z;
     mlp_activations_arg := mlp_activations cfg;
     mlp_intermediate_dropout_rate := dropout_rate cfg;
     mlp_dtype := dtype cfg;
     mlp_weight_dtype := weight_dtype cfg;
     mlp_name := "mlp";
     mlp_config := cfg;
     mlp_quant := quant self |}.

(** Lines 129-137: the shared-experts block of the mixture branch. *)
Definition shared_mlp (self : DeepSeekDecoderLayer) : MlpBlockArgs :=
  let cfg := config self in
  {| mlp_intermediate_dim := (mlp_dim cfg * num_shared_experts cfg)%Z;
     mlp_activations_arg := mlp_activations cfg;
     mlp_intermediate_dropout_rate := dropout_rate cfg;
     mlp_dtype := dtype cfg;
     mlp_weight_dtype := weight_dtype cfg;
     mlp_name := "mlp";
     mlp_config := cfg;
     mlp_quant := quant self |}.

(** Lines 140-149: the routed-experts block of the mixture branch. *)
Definition routed_moe (self : DeepSeekDecoderLayer) : MoeBlockArgs :=
  let cfg := config self in
  {| moe_config := cfg;
     moe_num_experts := num_experts cfg;
     moe_num_experts_per_tok := num_experts_per_tok cfg;
     moe_mesh := mesh self;
     moe_kernel_init := nd_dense_init 1%float "fan_in" "truncated_normal";
     moe_kernel_axes := [Some "embed"; None];
     moe_dtype := dtype cfg;
     moe_weight_dtype := weight_dtype cfg;
     moe_quant := quant self |}.

(** Lines 116-153: the feed-forward block on the normalised hidden
    states. *)
Definition feed_forward (self : DeepSeekDecoderLayer)
    (hidden_states : Tensor) (deterministic dense_layer : bool) : M Tensor :=
  if dense_layer then
    mlp_lnx <- call_MlpBlock (dense_mlp self) hidden_states deterministic ;;
    with_logical_constraint mlp_lnx activation_axes
  else
    mlp_shared_lnx <-
      call_MlpBlock (shared_mlp self) hidden_states deterministic ;;
    mlp_shared_lnx <- with_logical_constraint mlp_shared_lnx activation_axes ;;
    routed <- call_MoeBlock (routed_moe self) hidden_states ;;
    let mlp_routed_lnx := fst routed in
    mlp_routed_lnx <- with_logical_constraint mlp_routed_lnx activation_axes ;;
    let mlp_lnx := add mlp_shared_lnx mlp_routed_lnx in
    with_logical_constraint mlp_lnx activation_axes.

(** Lines 162-169. *)
Definition record_metrics (cfg : Config) (layer_output : Tensor) : M unit :=
  if record_internal_nn_metrics cfg then
    sow "intermediates" "activation_mean"
        (SownScalar (jnp_mean layer_output)) ;;
    sow "intermediates" "activation_stdev"
        (SownScalar (jnp_std layer_output)) ;;
    sow "intermediates" "activation_fraction_zero"
        (SownQuotient (true_divide (jnp_sum (jnp_eq_zero layer_output))
                                   (jnp_size layer_output)))
  else ret tt.

(** What [__call__] returns: the array alone, or the pair [(array, None)]. *)
Inductive Returned : Type :=
| ReturnArray (layer_output : Tensor)
| ReturnPair (layer_output : Tensor) (none : unit).

(** Lines 45-174. *)
Definition DeepSeekDecoderLayer_call (self : DeepSeekDecoderLayer)
    (inputs : Tensor) (decoder_segment_ids : SegmentIds)
    (decoder_positions : Positions) (deterministic : bool)
    (model_mode : string) (dense_layer : bool) : M Returned :=
  let cfg := config self in
  inputs <- with_logical_constraint inputs activation_axes ;;
  inputs <- checkpoint_name inputs "decoder_layer_input" ;;
  lnx <- call_RMSNorm (pre_self_attention_layer_norm cfg) inputs ;;
  lnx <- with_logical_constraint lnx activation_axes ;;
  attention_lnx <-
    call_Attention (attention_layer self) lnx lnx decoder_positions
                   decoder_segment_ids deterministic model_mode ;;
  attention_lnx <- with_logical_constraint attention_lnx activation_axes ;;
  let intermediate_inputs := add inputs attention_lnx in
  hidden_states <-
    call_RMSNorm (post_self_attention_layer_norm cfg) intermediate_inputs ;;
  hidden_states <- with_logical_constraint hidden_states activation_axes ;;
  mlp_lnx <- feed_forward self hidden_states deterministic dense_layer ;;
  let layer_output := add mlp_lnx intermediate_inputs in
  layer_output <- with_logical_constraint layer_output activation_axes ;;
  record_metrics cfg layer_output ;;
  if scan_layers cfg then ret (ReturnPair layer_output tt)
  else ret (ReturnArray layer_output).

(** ** Reading a run *)

Definition output_of (r : Returned) : Tensor :=
  match r with
  | ReturnArray layer_output => layer_output
  | ReturnPair layer_output _ => layer_output
  end.

Definition is_pair (r : Returned) : bool :=
  match r with
  | ReturnArray _ => false
  | ReturnPair _ _ => true
  end.

(** The sharding constraints of a trace, in order: array and axis names. *)
Fixpoint constraint_calls (tr : list Event) : list (Tensor * list string) :=
  match tr with
  | [] => []
  | E_with_logical_constraint x axes :: rest =>
      (x, axes) :: constraint_calls rest
  | _ :: rest => constraint_calls rest
  end.

(** The normalisations of a trace, in order. *)
Fixpoint rmsnorm_calls (tr : list Event) : list (RMSNormArgs * Tensor) :=
  match tr with
  | [] => []
  | E_RMSNorm args x :: rest => (args, x) :: rmsnorm_calls rest
  | _ :: rest => rmsnorm_calls rest
  end.

(** The attention, MLP and mixture-of-experts calls of a trace, in order. *)
Definition is_block_call (e : Event) : bool :=
  match e with
  | E_MLA _ _ _ _ _ _ _ | E_MlpBlock _ _ _ | E_MoeBlock _ _ => true
  | _ => false
  end.

Definition block_calls (tr : list Event) : list Event :=
  filter is_block_call tr.

(** The same with the normalisations: every module applied, in order. *)
Definition is_module_call (e : Event) : bool :=
  match e with
  | E_RMSNorm _ _ => true
  | _ => is_block_call e
  end.

Definition module_calls (tr : list Event) : list Event :=
  filter is_module_call tr.

(** The [intermediate_dim] of every [MlpBlock] of a trace, in order. *)
Fixpoint mlp_widths (tr : list Event) : list PyInt :=
  match tr with
  | [] => []
  | E_MlpBlock args _ _ :: rest => mlp_intermediate_dim args :: mlp_widths rest
  | _ :: rest => mlp_widths rest
  end.

(** The values sown under [col] and [name], in order. *)
Definition sown_under (col name : string) (vars : list SowEntry)
  : list Sown :=
  List.map sow_value
    (filter (fun e => String.eqb (sow_col e) col &&
                      String.eqb (sow_name e) name) vars).

(** The layer with one flag of its configuration replaced. *)
Definition with_record_internal_nn_metrics (b : bool) (cfg : Config)
  : Config :=
  {| dtype := dtype cfg;
     weight_dtype := weight_dtype cfg;
     normalization_layer_epsilon := normalization_layer_epsilon cfg;
     num_query_heads := num_query_heads cfg;
     q_lora_rank := q_lora_rank cfg;
     kv_lora_rank := kv_lora_rank cfg;
     qk_nope_head_dim := qk_nope_head_dim cfg;
     qk_rope_head_dim := qk_rope_head_dim cfg;
     head_dim := head_dim cfg;
     max_target_length := max_target_length cfg;
     max_prefill_predict_length := max_prefill_predict_length cfg;
     attention := attention cfg;
     mlp_dim := mlp_dim cfg;
     num_experts := num_experts cfg;
     num_experts_per_tok := num_experts_per_tok cfg;
     num_shared_experts := num_shared_experts cfg;
     mlp_activations := mlp_activations cfg;
     dropout_rate := dropout_rate cfg;
     record_internal_nn_metrics := b;
     scan_layers := scan_layers cfg;
     other_settings := other_settings cfg |}.

Definition with_scan_layers (b : bool) (cfg : Config) : Config :=
  {| dtype := dtype cfg;
     weight_dtype := weight_dtype cfg;
     normalization_layer_epsilon := normalization_layer_epsilon cfg;
     num_query_heads := num_query_heads cfg;
     q_lora_rank := q_lora_rank cfg;
     kv_lora_rank := kv_lora_rank cfg;
     qk_nope_head_dim := qk_nope_head_dim cfg;
     qk_rope_head_dim := qk_rope_head_dim cfg;
     head_dim := head_dim cfg;
     max_target_length := max_target_length cfg;
     max_prefill_predict_length := max_prefill_predict_length cfg;
     attention := attention cfg;
     mlp_dim := mlp_dim cfg;
     num_experts := num_experts cfg;
     num_experts_per_tok := num_experts_per_tok cfg;
     num_shared_experts := num_shared_experts cfg;
     mlp_activations := mlp_activations cfg;
     dropout_rate := dropout_rate cfg;
     record_internal_nn_metrics := record_internal_nn_metrics cfg;
     scan_layers := b;
     other_settings := other_settings cfg |}.

Definition with_config (cfg : Config) (self : DeepSeekDecoderLayer)
  : DeepSeekDecoderLayer :=
  {| config := cfg; mesh := mesh self; quant := quant self |}.

(** Two layers whose attention, MLP and mixture-of-experts blocks compute
    the same arrays.  The blocks are built from the whole configuration
    ([config=cfg]); what they read of it is decided in their own
    modules. *)
Definition same_blocks (self self' : DeepSeekDecoderLayer) : Prop :=
  (forall q kv p s d m,
      MLA (attention_layer self) q kv p s d m =
      MLA (attention_layer self') q kv p s d m) /\
  (forall x d, MlpBlock (dense_mlp self) x d =
               MlpBlock (dense_mlp self') x d) /\
  (forall x d, MlpBlock (shared_mlp self) x d =
               MlpBlock (shared_mlp self') x d) /\
  (forall x, fst (MoeBlock (routed_moe self) x) =
             fst (MoeBlock (routed_moe self') x)).

(** ** Further readings of a trace *)

(** The checkpoint tags of a trace, in order: array and name. *)
Fixpoint checkpoint_calls (tr : list Event) : list (Tensor * string) :=
  match tr with
  | [] => []
  | E_checkpoint_name x name :: rest => (x, name) :: checkpoint_calls rest
  | _ :: rest => checkpoint_calls rest
  end.

(** The [name=] keyword a module is built with; [MoeBlock] is built
    without one (lines 140-149). *)
Definition module_name (e : Event) : option string :=
  match e with
  | E_RMSNorm args _ => Some (rms_name args)
  | E_MLA args _ _ _ _ _ _ => Some (mla_name args)
  | E_MlpBlock args _ _ => Some (mlp_name args)
  | _ => None
  end.

Definition given_names (tr : list Event) : list string :=
  flat_map (fun e => match module_name e with
                     | Some n => [n]
                     | None => []
                     end) tr.

(** The [dtype=] and [weight_dtype=] keywords of a module. *)
Definition module_dtypes (e : Event) : option (DType * DType) :=
  match e with
  | E_RMSNorm args _ => Some (rms_dtype args, rms_weight_dtype args)
  | E_MLA args _ _ _ _ _ _ => Some (mla_dtype args, mla_weight_dtype args)
  | E_MlpBlock args _ _ => Some (mlp_dtype args, mlp_weight_dtype args)
  | E_MoeBlock args _ => Some (moe_dtype args, moe_weight_dtype args)
  | _ => None
  end.

(** The [config=] and [quant=] keywords of a block. *)
Definition block_settings (e : Event) : option (Config * option Quant) :=
  match e with
  | E_MLA args _ _ _ _ _ _ => Some (mla_config args, mla_quant args)
  | E_MlpBlock args _ _ => Some (mlp_config args, mlp_quant args)
  | E_MoeBlock args _ => Some (moe_config args, moe_quant args)
  | _ => None
  end.

(** The [mesh=] keyword of a block that takes one. *)
Definition block_mesh (e : Event) : option Mesh :=
  match e with
  | E_MLA args _ _ _ _ _ _ => Some (mla_mesh args)
  | E_MoeBlock args _ => Some (moe_mesh args)
  | _ => None
  end.

(** The arrays a trace hands to the modules, in order. *)
Definition module_inputs (tr : list Event) : list Tensor :=
  flat_map (fun e => match e with
                     | E_RMSNorm _ x => [x]
                     | E_MLA _ inputs_q inputs_kv _ _ _ _ =>
                         [inputs_q; inputs_kv]
                     | E_MlpBlock _ x _ => [x]
                     | E_MoeBlock _ x => [x]
                     | _ => []
                     end) tr.

(** [x] is under a sharding constraint of the trace: it is what one of
    the recorded constraints returned, as it is or with a checkpoint
    name. *)
Definition under_constraint (tr : list Event) (x : Tensor) : Prop :=
  exists y axes,
    In (y, axes) (constraint_calls tr) /\
    (x = constrained y axes \/ exists name, x = named (constrained y axes) name).

(** The framework with another [MoeBlock] in place of its own. *)
Definition with_MoeBlock (f : MoeBlockArgs -> Tensor -> Tensor * MoeAux)
  : Framework :=
  {| add := add;
     constrained := constrained;
     named := named;
     RMSNorm := RMSNorm;
     MLA := MLA;
     MlpBlock := MlpBlock;
     MoeBlock := f;
     configure_kv_quant := configure_kv_quant;
     nd_dense_init := nd_dense_init;
     jnp_mean := jnp_mean;
     jnp_std := jnp_std;
     entries := entries;
     eq_zero := eq_zero |}.

End Layer.

(** ** A small instance, to run the layer on

    Arrays are lists of integers; the blocks are simple maps that can be
    told apart. *)
Module Toy.

#[export] Instance types : Types := {|
  Tensor := list Z;
  Elem := Z;
  Scalar := Z;
  DType := string;
  Mesh := unit;
  Quant := unit;
  KVQuant := unit;
  Initializer := unit;
  Positions := list Z;
  SegmentIds := option (list Z);
  MoeAux := unit;
  OtherSettings := unit
|}.

Fixpoint zip_add (a b : list Z) : list Z :=
  match a, b with
  | x :: a', y :: b' => (x + y)%Z :: zip_add a' b'
  | _, _ => []
  end.

#[export] Instance framework : Framework := {|
  add := zip_add;
  constrained := fun x _ => x;
  named := fun x _ => x;
  RMSNorm := fun _ x => List.map (fun v => Z.sgn v) x;
  MLA := fun _ q kv _ _ _ _ => zip_add (List.map (Z.mul 2) q) kv;
  MlpBlock := fun args x _ =>
                List.map (fun v => (v * mlp_intermediate_dim args)%Z) x;
  MoeBlock := fun args x =>
                (List.map (fun v => (v * moe_num_experts_per_tok args)%Z) x,
                 tt);
  configure_kv_quant := fun _ => tt;
  nd_dense_init := fun _ _ _ => tt;
  jnp_mean := fun x => (fold_right Z.add 0 x / Z.of_nat (List.length x))%Z;
  jnp_std := fun _ => 0%Z;
  entries := fun x => x;
  eq_zero := fun v => Z.eqb v 0
|}.

Definition cfg : Config := {|
  dtype := "bfloat16";
  weight_dtype := "float32";
  normalization_layer_epsilon := 0x1p-20%float;
  num_query_heads := 4;
  q_lora_rank := 0;
  kv_lora_rank := 8;
  qk_nope_head_dim := 4;
  qk_rope_head_dim := 2;
  head_dim := 4;
  max_target_length := 16;
  max_prefill_predict_length := 8;
  attention := "dot_product";
  mlp_dim := 5;
  num_experts := 8;
  num_experts_per_tok := 2;
  num_shared_experts := 1;
  mlp_activations := ["silu"; "linear"];
  dropout_rate := 0%float;
  record_internal_nn_metrics := true;
  scan_layers := false;
  other_settings := tt
|}.

Definition layer : DeepSeekDecoderLayer :=
  {| config := cfg; mesh := tt; quant := None |}.

Definition inputs : list Z := [3; 0; -1; 2]%Z.

Definition run (dense_layer : bool) : Returned * Store :=
  runState (DeepSeekDecoderLayer_call layer inputs None [0; 1; 2; 3]%Z true
                                      "train" dense_layer)
           empty_store.

End Toy.

(** The same instance with a router that also returns a load-balance
    value. *)
Module ToyAux.

#[export] Instance types : Types := {|
  Tensor := list Z;
  Elem := Z;
  Scalar := Z;
  DType := string;
  Mesh := unit;
  Quant := unit;
  KVQuant := unit;
  Initializer := unit;
  Positions := list Z;
  SegmentIds := option (list Z);
  MoeAux := Z;
  OtherSettings := unit
|}.

#[export] Instance framework : Framework := {|
  add := Toy.zip_add;
  constrained := fun x _ => x;
  named := fun x _ => x;
  RMSNorm := fun _ x => List.map (fun v => Z.sgn v) x;
  MLA := fun _ q kv _ _ _ _ => Toy.zip_add (List.map (Z.mul 2) q) kv;
  MlpBlock := fun args x _ =>
                List.map (fun v => (v * mlp_intermediate_dim args)%Z) x;
  MoeBlock := fun args x =>
                (List.map (fun v => (v * moe_num_experts_per_tok args)%Z) x,
                 fold_right Z.add 0 x);
  configure_kv_quant := fun _ => tt;
  nd_dense_init := fun _ _ _ => tt;
  jnp_mean := fun x => (fold_right Z.add 0 x / Z.of_nat (List.length x))%Z;
  jnp_std := fun _ => 0%Z;
  entries := fun x => x;
  eq_zero := fun v => Z.eqb v 0
|}.

Definition cfg : Config := {|
  dtype := "bfloat16";
  weight_dtype := "float32";
  normalization_layer_epsilon := 0x1p-20%float;
  num_query_heads := 4;
  q_lora_rank := 0;
  kv_lora_rank := 8;
  qk_nope_head_dim := 4;
  qk_rope_head_dim := 2;
  head_dim := 4;
  max_target_length := 16;
  max_prefill_predict_length := 8;
  attention := "dot_product";
  mlp_dim := 5;
  num_experts := 8;
  num_experts_per_tok := 2;
  num_shared_experts := 0;
  mlp_activations := ["silu"; "linear"];
  dropout_rate := 0%float;
  record_internal_nn_metrics := true;
  scan_layers := true;
  other_settings := tt
|}.

Definition layer : DeepSeekDecoderLayer :=
  {| config := cfg; mesh := tt; quant := None |}.

(** A router that returns the same arrays and another second component. *)
Definition other_router (args : MoeBlockArgs) (x : list Z) : list Z * Z :=
  (List.map (fun v => (v * moe_num_experts_per_tok args)%Z) x, 7).

End ToyAux.

(** * Properties *)

Section Properties.
Context {T : Types} {F : Framework}.

Implicit Types (self : DeepSeekDecoderLayer) (st : Store).

(** ** Running the layer *)

Lemma app_one_assoc (A : Type) (l : list A) (a : A) (k : list A) :
  (l ++ [a]) ++ k = l ++ a :: k.
Proof. rewrite <- app_assoc. reflexivity. Qed.

(** The feed-forward block: its result and what it adds to the trace. *)
Lemma feed_forward_run self hidden_states deterministic dense_layer st :
  runState (feed_forward self hidden_states deterministic dense_layer) st =
  if dense_layer then
    let mlp := MlpBlock (dense_mlp self) hidden_states deterministic in
    (constrained mlp activation_axes,
     {| trace := trace st ++
          [E_MlpBlock (dense_mlp self) hidden_states deterministic;
           E_with_logical_constraint mlp activation_axes];
        variables := variables st |})
  else
    let shared := MlpBlock (shared_mlp self) hidden_states deterministic in
    let routed := fst (MoeBlock (routed_moe self) hidden_states) in
    let total := add (constrained shared activation_axes)
                     (constrained routed activation_axes) in
    (constrained total activation_axes,
     {| trace := trace st ++
          [E_MlpBlock (shared_mlp self) hidden_states deterministic;
           E_with_logical_constraint shared activation_axes;
           E_MoeBlock (routed_moe self) hidden_states;
           E_with_logical_constraint routed activation_axes;
           E_with_logical_constraint total activation_axes];
        variables := variables st |}).
Proof.
  destruct st as [tr vars], dense_layer; cbn;
    repeat rewrite app_one_assoc; reflexivity.
Qed.

Lemma constraint_calls_app (tr1 tr2 : list Event) :
  constraint_calls (tr1 ++ tr2) = constraint_calls tr1 ++ constraint_calls tr2.
Proof.
  induction tr1 as [|e tr1 IH]; [reflexivity|].
  destruct e; cbn; rewrite IH; reflexivity.
Qed.

Lemma rmsnorm_calls_app (tr1 tr2 : list Event) :
  rmsnorm_calls (tr1 ++ tr2) = rmsnorm_calls tr1 ++ rmsnorm_calls tr2.
Proof.
  induction tr1 as [|e tr1 IH]; [reflexivity|].
  destruct e; cbn; rewrite IH; reflexivity.
Qed.

Lemma block_calls_app (tr1 tr2 : list Event) :
  block_calls (tr1 ++ tr2) = block_calls tr1 ++ block_calls tr2.
Proof. apply filter_app. Qed.

Lemma module_calls_app (tr1 tr2 : list Event) :
  module_calls (tr1 ++ tr2) = module_calls tr1 ++ module_calls tr2.
Proof. apply filter_app. Qed.

Lemma mlp_widths_app (tr1 tr2 : list Event) :
  mlp_widths (tr1 ++ tr2) = mlp_widths tr1 ++ mlp_widths tr2.
Proof.
  induction tr1 as [|e tr1 IH]; [reflexivity|].
  destruct e; cbn; rewrite IH; reflexivity.
Qed.

Lemma sown_under_app (col name : string) (v1 v2 : list SowEntry) :
  sown_under col name (v1 ++ v2) =
  sown_under col name v1 ++ sown_under col name v2.
Proof. unfold sown_under. rewrite filter_app, map_app. reflexivity. Qed.

(** ** One call *)

Section Call.
Variables (self : DeepSeekDecoderLayer) (inputs : Tensor)
          (decoder_segment_ids : SegmentIds) (decoder_positions : Positions)
          (deterministic : bool) (model_mode : string) (dense_layer : bool).

Let cfg := config self.

(** The arrays of lines 57-160, by the names the source gives them; a
    primed name is the array before its sharding constraint. *)
Let inputs_c := named (constrained inputs activation_axes)
                      "decoder_layer_input".
Let lnx' := RMSNorm (pre_self_attention_layer_norm cfg) inputs_c.
Let lnx := constrained lnx' activation_axes.
Let attention_lnx' :=
  MLA (attention_layer self) lnx lnx decoder_positions decoder_segment_ids
      deterministic model_mode.
Let attention_lnx := constrained attention_lnx' activation_axes.
Let intermediate_inputs := add inputs_c attention_lnx.
Let hidden_states' :=
  RMSNorm (post_self_attention_layer_norm cfg) intermediate_inputs.
Let hidden_states := constrained hidden_states' activation_axes.
Let mlp_dense' := MlpBlock (dense_mlp self) hidden_states deterministic.
Let mlp_shared_lnx' := MlpBlock (shared_mlp self) hidden_states deterministic.
Let mlp_routed_lnx' := fst (MoeBlock (routed_moe self) hidden_states).
Let mlp_sum' := add (constrained mlp_shared_lnx' activation_axes)
                    (constrained mlp_routed_lnx' activation_axes).
Let mlp_lnx :=
  if dense_layer then constrained mlp_dense' activation_axes
  else constrained mlp_sum' activation_axes.
Let layer_output' := add mlp_lnx intermediate_inputs.
Let layer_output := constrained layer_output' activation_axes.

Let call : M Returned :=
  DeepSeekDecoderLayer_call self inputs decoder_segment_ids
    decoder_positions deterministic model_mode dense_layer.

(** The whole run: the returned value, the trace and the sown variables. *)
Lemma call_run st :
  runState call st =
  (if scan_layers cfg then ReturnPair layer_output tt
   else ReturnArray layer_output,
   {| trace := trace st ++
        [E_with_logical_constraint inputs activation_axes;
         E_checkpoint_name (constrained inputs activation_axes)
                           "decoder_layer_input";
         E_RMSNorm (pre_self_attention_layer_norm cfg) inputs_c;
         E_with_logical_constraint lnx' activation_axes;
         E_MLA (attention_layer self) lnx lnx decoder_positions
               decoder_segment_ids deterministic model_mode;
         E_with_logical_constraint attention_lnx' activation_axes;
         E_RMSNorm (post_self_attention_layer_norm cfg) intermediate_inputs;
         E_with_logical_constraint hidden_states' activation_axes] ++
        (if dense_layer then
           [E_MlpBlock (dense_mlp self) hidden_states deterministic;
            E_with_logical_constraint mlp_dense' activation_axes]
         else
           [E_MlpBlock (shared_mlp self) hidden_states deterministic;
            E_with_logical_constraint mlp_shared_lnx' activation_axes;
            E_MoeBlock (routed_moe self) hidden_states;
            E_with_logical_constraint mlp_routed_lnx' activation_axes;
            E_with_logical_constraint mlp_sum' activation_axes]) ++
        [E_with_logical_constraint layer_output' activation_axes];
      variables := variables st ++
        if record_internal_nn_metrics cfg then
          [{| sow_col := "intermediates"; sow_name := "activation_mean";
              sow_value := SownScalar (jnp_mean layer_output) |};
           {| sow_col := "intermediates"; sow_name := "activation_stdev";
              sow_value := SownScalar (jnp_std layer_output) |};
           {| sow_col := "intermediates";
              sow_name := "activation_fraction_zero";
              sow_value :=
                SownQuotient
                  (true_divide (jnp_sum (jnp_eq_zero layer_output))
                               (jnp_size layer_output)) |}]
        else [] |}).
Proof.
  unfold call, DeepSeekDecoderLayer_call, feed_forward, record_metrics.
  subst layer_output layer_output' mlp_lnx cfg.
  destruct st as [tr vars].
  destruct dense_layer, (record_internal_nn_metrics (config self)),
    (scan_layers (config self)); cbn;
    repeat rewrite app_one_assoc; rewrite ?app_nil_r; reflexivity.
Qed.

Lemma call_value st :
  evalState call st =
  if scan_layers cfg then ReturnPair layer_output tt
  else ReturnArray layer_output.
Proof. unfold evalState. rewrite call_run. reflexivity. Qed.

Lemma call_output st : output_of (evalState call st) = layer_output.
Proof. rewrite call_value. destruct (scan_layers cfg); reflexivity. Qed.

Lemma call_trace st :
  exists events, trace (execState call st) = trace st ++ events /\
    events =
      [E_with_logical_constraint inputs activation_axes;
       E_checkpoint_name (constrained inputs activation_axes)
                         "decoder_layer_input";
       E_RMSNorm (pre_self_attention_layer_norm cfg) inputs_c;
       E_with_logical_constraint lnx' activation_axes;
       E_MLA (attention_layer self) lnx lnx decoder_positions
             decoder_segment_ids deterministic model_mode;
       E_with_logical_constraint attention_lnx' activation_axes;
       E_RMSNorm (post_self_attention_layer_norm cfg) intermediate_inputs;
       E_with_logical_constraint hidden_states' activation_axes] ++
      (if dense_layer then
         [E_MlpBlock (dense_mlp self) hidden_states deterministic;
          E_with_logical_constraint mlp_dense' activation_axes]
       else
         [E_MlpBlock (shared_mlp self) hidden_states deterministic;
          E_with_logical_constraint mlp_shared_lnx' activation_axes;
          E_MoeBlock (routed_moe self) hidden_states;
          E_with_logical_constraint mlp_routed_lnx' activation_axes;
          E_with_logical_constraint mlp_sum' activation_axes]) ++
      [E_with_logical_constraint layer_output' activation_axes].
Proof.
  eexists. unfold execState. rewrite call_run. cbn [snd trace].
  split; reflexivity.
Qed.

(** Replace the trace of the run by the initial trace followed by the
    events of [call_trace]. *)
Ltac expose_trace st :=
  let events := fresh "events" in
  destruct (call_trace st) as (events & -> & ->).

(** ** The feed-forward branch *)

(** C1.  The feed-forward contribution is chosen by [dense_layer].  With
    [dense_layer] it is the (constrained) output of the one dense
    [MlpBlock] on [hidden_states], the normalised post-attention array;
    otherwise it is the (constrained) sum of the shared [MlpBlock] output
    and the routed [MoeBlock] output, both on that same [hidden_states].
    Those are the only MLP and mixture-of-experts blocks the call applies,
    and what the block returns is the summand of the layer output. *)
Theorem feed_forward_selected_by_dense_layer st :
  evalState (feed_forward self hidden_states deterministic dense_layer) st =
    (if dense_layer then
       constrained (MlpBlock (dense_mlp self) hidden_states deterministic)
                   activation_axes
     else
       constrained
         (add (constrained
                 (MlpBlock (shared_mlp self) hidden_states deterministic)
                 activation_axes)
              (constrained (fst (MoeBlock (routed_moe self) hidden_states))
                           activation_axes))
         activation_axes) /\
  block_calls (trace (execState call st)) =
    block_calls (trace st) ++
    E_MLA (attention_layer self) lnx lnx decoder_positions
          decoder_segment_ids deterministic model_mode ::
    (if dense_layer then
       [E_MlpBlock (dense_mlp self) hidden_states deterministic]
     else
       [E_MlpBlock (shared_mlp self) hidden_states deterministic;
        E_MoeBlock (routed_moe self) hidden_states]) /\
  output_of (evalState call st) =
    constrained
      (add (evalState
              (feed_forward self hidden_states deterministic dense_layer) st)
           intermediate_inputs)
      activation_axes.
Proof.
  assert (Hff : evalState
            (feed_forward self hidden_states deterministic dense_layer) st =
          mlp_lnx).
  { unfold evalState. rewrite feed_forward_run.
    subst mlp_lnx. destruct dense_layer; reflexivity. }
  split; [|split].
  - rewrite Hff. subst mlp_lnx. destruct dense_layer; reflexivity.
  - expose_trace st.
    rewrite block_calls_app. f_equal.
    destruct dense_layer; reflexivity.
  - rewrite Hff, call_output. reflexivity.
Qed.

(** ** Residual connections *)

(** C2.  Both residual connections are there.  The array handed to the
    second normalisation, [intermediate_inputs], is the unnormalised
    [inputs] plus the attention output, and the layer output is the
    feed-forward output plus that array.  When the sharding constraint and
    the checkpoint name return their argument unchanged, the layer output
    is [ffn + (inputs + attention)] on the bare block outputs, and
    [(inputs + attention) + ffn] when array addition commutes. *)
Theorem residual_connections st :
  rmsnorm_calls (trace (execState call st)) =
    rmsnorm_calls (trace st) ++
    [(pre_self_attention_layer_norm cfg, inputs_c);
     (post_self_attention_layer_norm cfg, add inputs_c attention_lnx)] /\
  output_of (evalState call st) =
    constrained (add mlp_lnx (add inputs_c attention_lnx)) activation_axes /\
  ((forall x axes, constrained x axes = x) ->
   (forall x name, named x name = x) ->
   let normed := RMSNorm (pre_self_attention_layer_norm cfg) inputs in
   let attention_out :=
     MLA (attention_layer self) normed normed decoder_positions
         decoder_segment_ids deterministic model_mode in
   let hidden :=
     RMSNorm (post_self_attention_layer_norm cfg)
             (add inputs attention_out) in
   let ffn_out :=
     if dense_layer then MlpBlock (dense_mlp self) hidden deterministic
     else add (MlpBlock (shared_mlp self) hidden deterministic)
              (fst (MoeBlock (routed_moe self) hidden)) in
   output_of (evalState call st) = add ffn_out (add inputs attention_out) /\
   ((forall a b, add a b = add b a) ->
    output_of (evalState call st) = add (add inputs attention_out) ffn_out)).
Proof.
  split; [|split].
  - expose_trace st.
    rewrite rmsnorm_calls_app. f_equal.
    destruct dense_layer; reflexivity.
  - apply call_output.
  - intros Hc Hn normed attention_out hidden ffn_out.
    assert (Hout : output_of (evalState call st) =
                   add ffn_out (add inputs attention_out)).
    { rewrite call_output.
      subst layer_output layer_output' mlp_lnx mlp_sum' mlp_routed_lnx'
            mlp_shared_lnx' mlp_dense' hidden_states hidden_states'
            intermediate_inputs attention_lnx attention_lnx' lnx lnx'
            inputs_c ffn_out hidden attention_out normed.
      rewrite !Hc, !Hn. destruct dense_layer; rewrite ?Hc; reflexivity. }
    split; [exact Hout|].
    intros Hcomm. rewrite Hout. apply Hcomm.
Qed.

(** ** Normalisation *)

(** C3.  The layer normalises before each block and nowhere else.  The
    modules applied are, in this order: an [RMSNorm] on the inputs, the
    attention on its result, an [RMSNorm] on the post-attention array
    [intermediate_inputs], and the feed-forward blocks on its result.
    Both norms take [cfg.normalization_layer_epsilon].  Both residual sums
    add the array from before the norm, and the returned array is the
    (constrained) second sum: the last thing the trace records is the
    constraint on it. *)
Theorem pre_normalization st :
  module_calls (trace (execState call st)) =
    module_calls (trace st) ++
    [E_RMSNorm (pre_self_attention_layer_norm cfg) inputs_c;
     E_MLA (attention_layer self)
           (constrained
              (RMSNorm (pre_self_attention_layer_norm cfg) inputs_c)
              activation_axes)
           (constrained
              (RMSNorm (pre_self_attention_layer_norm cfg) inputs_c)
              activation_axes)
           decoder_positions decoder_segment_ids deterministic model_mode;
     E_RMSNorm (post_self_attention_layer_norm cfg)
               (add inputs_c attention_lnx)] ++
    (let normed :=
       constrained
         (RMSNorm (post_self_attention_layer_norm cfg)
                  (add inputs_c attention_lnx))
         activation_axes in
     if dense_layer then [E_MlpBlock (dense_mlp self) normed deterministic]
     else [E_MlpBlock (shared_mlp self) normed deterministic;
           E_MoeBlock (routed_moe self) normed]) /\
  rms_epsilon (pre_self_attention_layer_norm cfg) =
    normalization_layer_epsilon cfg /\
  rms_epsilon (post_self_attention_layer_norm cfg) =
    normalization_layer_epsilon cfg /\
  output_of (evalState call st) =
    constrained (add mlp_lnx (add inputs_c attention_lnx)) activation_axes /\
  (exists earlier,
      trace (execState call st) =
      earlier ++
      [E_with_logical_constraint (add mlp_lnx (add inputs_c attention_lnx))
                                 activation_axes]).
Proof.
  repeat split.
  - expose_trace st.
    rewrite module_calls_app. f_equal.
    destruct dense_layer; reflexivity.
  - apply call_output.
  - expose_trace st.
    eexists. rewrite !app_assoc. reflexivity.
Qed.

(** ** Attention *)

(** C4.  The attention block is [attentions.MLA], applied once and as
    self-attention: the normalised, constrained [lnx] is both its first
    and its second input, followed by [decoder_positions],
    [decoder_segment_ids], [deterministic] and [model_mode]; its
    (constrained) result is the attention summand of the layer output. *)
Theorem attention_is_self_attention_MLA st :
  @Attention T F = @MLA T F /\
  filter (fun e => match e with E_MLA _ _ _ _ _ _ _ => true | _ => false end)
         (trace (execState call st)) =
    filter (fun e => match e with E_MLA _ _ _ _ _ _ _ => true | _ => false end)
           (trace st) ++
    [E_MLA (attention_layer self) lnx lnx decoder_positions
           decoder_segment_ids deterministic model_mode] /\
  lnx = constrained (RMSNorm (pre_self_attention_layer_norm cfg) inputs_c)
                    activation_axes /\
  output_of (evalState call st) =
    constrained
      (add mlp_lnx
           (add inputs_c
                (constrained
                   (MLA (attention_layer self) lnx lnx decoder_positions
                        decoder_segment_ids deterministic model_mode)
                   activation_axes)))
      activation_axes.
Proof.
  split; [reflexivity|]. split; [|split].
  - expose_trace st.
    rewrite filter_app. f_equal.
    destruct dense_layer; reflexivity.
  - reflexivity.
  - apply call_output.
Qed.

(** ** Sharding constraints *)

Lemma module_inputs_app (tr1 tr2 : list Event) :
  module_inputs (tr1 ++ tr2) = module_inputs tr1 ++ module_inputs tr2.
Proof. apply flat_map_app. Qed.

(** C6 (as amended).  The arrays put under a sharding constraint are, in
    order: the inputs, the normalised [lnx], the attention output, the
    normalised [hidden_states], the feed-forward outputs (the dense one,
    or the shared one, the routed one and their sum) and the layer output;
    each with the axis names [activation_batch], [activation_norm_length],
    [activation_embed], in both branches, and these are all the
    constraints of a call.  What the layer returns, and what it hands to
    the first norm, the attention and the feed-forward blocks, is a
    constrained array.  The residual sum [intermediate_inputs] is not
    among the constrained arrays: the second norm is applied to the sum as
    it is computed. *)
Theorem activations_constrained st :
  constraint_calls (trace (execState call st)) =
    constraint_calls (trace st) ++
    List.map (fun x => (x, ["activation_batch"; "activation_norm_length";
                            "activation_embed"]))
      ([inputs;
        RMSNorm (pre_self_attention_layer_norm cfg) inputs_c;
        MLA (attention_layer self) lnx lnx decoder_positions
            decoder_segment_ids deterministic model_mode;
        RMSNorm (post_self_attention_layer_norm cfg) intermediate_inputs] ++
       (if dense_layer then
          [MlpBlock (dense_mlp self) hidden_states deterministic]
        else
          [MlpBlock (shared_mlp self) hidden_states deterministic;
           fst (MoeBlock (routed_moe self) hidden_states);
           add (constrained
                  (MlpBlock (shared_mlp self) hidden_states deterministic)
                  activation_axes)
               (constrained (fst (MoeBlock (routed_moe self) hidden_states))
                            activation_axes)]) ++
       [add mlp_lnx intermediate_inputs]) /\
  Forall (fun c => snd c = activation_axes)
         (skipn (List.length (constraint_calls (trace st)))
                (constraint_calls (trace (execState call st)))) /\
  output_of (evalState call st) =
    constrained (add mlp_lnx intermediate_inputs) activation_axes /\
  module_inputs (trace (execState call st)) =
    module_inputs (trace st) ++
    [inputs_c; lnx; lnx; add inputs_c attention_lnx] ++
    (if dense_layer then [hidden_states]
     else [hidden_states; hidden_states]) /\
  Forall (under_constraint (trace (execState call st)))
         [inputs_c; lnx; hidden_states].
Proof.
  assert (Hcalls : exists added,
             constraint_calls (trace (execState call st)) =
             constraint_calls (trace st) ++
             List.map (fun x => (x, activation_axes)) added /\
             added =
             [inputs; lnx'; attention_lnx'; hidden_states'] ++
             (if dense_layer then [mlp_dense']
              else [mlp_shared_lnx'; mlp_routed_lnx'; mlp_sum']) ++
             [layer_output']).
  { expose_trace st.
    eexists. rewrite constraint_calls_app. split; [f_equal|reflexivity].
    destruct dense_layer; reflexivity. }
  destruct Hcalls as (added & Hcalls & Hadded).
  split; [|split; [|split; [|split]]].
  - rewrite Hcalls, Hadded. reflexivity.
  - rewrite Hcalls, skipn_app, skipn_all, Nat.sub_diag. cbn [app skipn].
    apply Forall_forall. intros c Hin.
    apply in_map_iff in Hin. destruct Hin as (x & <- & _). reflexivity.
  - apply call_output.
  - expose_trace st. rewrite module_inputs_app. f_equal.
    destruct dense_layer; reflexivity.
  - assert (Hin : forall x, In x [inputs; lnx'; attention_lnx'; hidden_states']
                            -> In (x, activation_axes)
                                  (constraint_calls
                                     (trace (execState call st)))).
    { intros x Hx. rewrite Hcalls, Hadded. apply in_or_app. right.
      apply (in_map (fun x0 : Tensor => (x0, activation_axes))).
      apply in_or_app. left. exact Hx. }
    repeat constructor.
    + exists inputs, activation_axes. split.
      * apply Hin. cbn [In]. tauto.
      * right. eexists. reflexivity.
    + exists lnx', activation_axes. split.
      * apply Hin. cbn [In]. tauto.
      * left. reflexivity.
    + exists hidden_states', activation_axes. split.
      * apply Hin. cbn [In]. tauto.
      * left. reflexivity.
Qed.

(** ** Sizes of the feed-forward blocks *)

(** C8.  The dense block is built with intermediate dimension
    [mlp_dim * (num_experts_per_tok + num_shared_experts)] and the shared
    block of the mixture branch with [mlp_dim * num_shared_experts], in
    integer arithmetic; these are the widths of the [MlpBlock]s the call
    applies in either branch.  So the dense width is the shared width plus
    [mlp_dim] for each of the [num_experts_per_tok] routed experts. *)
Theorem feed_forward_widths st :
  mlp_widths (trace (execState call st)) =
    mlp_widths (trace st) ++
    [if dense_layer
     then mlp_dim cfg * (num_experts_per_tok cfg + num_shared_experts cfg)
     else mlp_dim cfg * num_shared_experts cfg] /\
  mlp_intermediate_dim (dense_mlp self) =
    mlp_dim cfg * (num_experts_per_tok cfg + num_shared_experts cfg) /\
  mlp_intermediate_dim (shared_mlp self) =
    mlp_dim cfg * num_shared_experts cfg /\
  moe_num_experts_per_tok (routed_moe self) = num_experts_per_tok cfg /\
  mlp_intermediate_dim (dense_mlp self) =
    mlp_intermediate_dim (shared_mlp self) +
    mlp_dim cfg * moe_num_experts_per_tok (routed_moe self).
Proof.
  split.
  - expose_trace st.
    rewrite mlp_widths_app. f_equal.
    destruct dense_layer; reflexivity.
  - repeat split. cbn. subst cfg. lia.
Qed.

(** ** The input tag, names and settings *)

Lemma checkpoint_calls_app (tr1 tr2 : list Event) :
  checkpoint_calls (tr1 ++ tr2) = checkpoint_calls tr1 ++ checkpoint_calls tr2.
Proof.
  induction tr1 as [|e tr1 IH]; [reflexivity|].
  destruct e; cbn; rewrite IH; reflexivity.
Qed.

(** X1.  The layer tags one array for checkpointing, under the name
    [decoder_layer_input]: the constrained inputs.  The tag comes right
    after that first constraint, and the tagged array is what the first
    norm is applied to. *)
Theorem input_tagged_once st :
  checkpoint_calls (trace (execState call st)) =
    checkpoint_calls (trace st) ++
    [(constrained inputs activation_axes, "decoder_layer_input")] /\
  exists later,
    trace (execState call st) =
    trace st ++
    E_with_logical_constraint inputs activation_axes ::
    E_checkpoint_name (constrained inputs activation_axes)
                      "decoder_layer_input" ::
    E_RMSNorm (pre_self_attention_layer_norm cfg)
              (named (constrained inputs activation_axes)
                     "decoder_layer_input") ::
    later.
Proof.
  expose_trace st. split.
  - rewrite checkpoint_calls_app. f_equal.
    destruct dense_layer; reflexivity.
  - eexists. cbn [app]. reflexivity.
Qed.

(** X2.  The names the layer gives to the modules it builds are, in both
    branches, [pre_self_attention_layer_norm], [self_attention],
    [post_self_attention_layer_norm] and [mlp]: no name is used twice in
    one call, and the dense block and the shared-experts block go by the
    same name [mlp].  The mixture-of-experts block is the one module built
    without a name. *)
Theorem module_names_distinct st :
  given_names (trace (execState call st)) =
    given_names (trace st) ++
    ["pre_self_attention_layer_norm"; "self_attention";
     "post_self_attention_layer_norm"; "mlp"] /\
  NoDup ["pre_self_attention_layer_norm"; "self_attention";
         "post_self_attention_layer_norm"; "mlp"] /\
  List.length (module_calls (trace (execState call st))) =
    (List.length (module_calls (trace st)) +
     if dense_layer then 4 else 5)%nat.
Proof.
  split; [|split].
  - expose_trace st. unfold given_names. rewrite flat_map_app. f_equal.
    destruct dense_layer; reflexivity.
  - repeat constructor; cbn [In]; intros H;
      repeat (destruct H as [H|H]; [discriminate H|]); exact H.
  - expose_trace st. rewrite module_calls_app, length_app. f_equal.
    destruct dense_layer; reflexivity.
Qed.

(** X3.  Every module of a call is built with [cfg.dtype] and
    [cfg.weight_dtype]; every block (attention, MLP, mixture of experts)
    with the layer's own configuration and [quant]; and the blocks that
    take a mesh with the layer's mesh. *)
Theorem modules_share_settings st :
  exists events,
    trace (execState call st) = trace st ++ events /\
    Forall (fun e => module_dtypes e = Some (dtype cfg, weight_dtype cfg))
           (module_calls events) /\
    Forall (fun e => block_settings e = Some (cfg, quant self))
           (block_calls events) /\
    Forall (fun e => block_mesh e = Some (mesh self) \/
                     exists args x d, e = E_MlpBlock args x d)
           (block_calls events).
Proof.
  expose_trace st. eexists. split; [reflexivity|].
  destruct dense_layer; cbn; repeat split;
    repeat (constructor; try (left; reflexivity);
            try (right; do 3 eexists; reflexivity); try reflexivity).
Qed.

End Call.

(** ** Flags of the configuration *)

(** The layer output is built from the two norms and the blocks alone. *)
Lemma output_same_blocks self self' inputs decoder_segment_ids
    decoder_positions deterministic model_mode dense_layer st st' :
  pre_self_attention_layer_norm (config self) =
    pre_self_attention_layer_norm (config self') ->
  post_self_attention_layer_norm (config self) =
    post_self_attention_layer_norm (config self') ->
  same_blocks self self' ->
  output_of (evalState
               (DeepSeekDecoderLayer_call self inputs decoder_segment_ids
                  decoder_positions deterministic model_mode dense_layer)
               st) =
  output_of (evalState
               (DeepSeekDecoderLayer_call self' inputs decoder_segment_ids
                  decoder_positions deterministic model_mode dense_layer)
               st').
Proof.
  intros Hpre Hpost (Hattn & Hdense & Hshared & Hrouted).
  pose proof (call_output self inputs decoder_segment_ids decoder_positions
                deterministic model_mode dense_layer st) as H.
  pose proof (call_output self' inputs decoder_segment_ids decoder_positions
                deterministic model_mode dense_layer st') as H'.
  cbv zeta in H, H'. rewrite H, H'. clear H H'.
  rewrite Hpre, Hpost, Hattn.
  destruct dense_layer.
  - rewrite Hdense. reflexivity.
  - rewrite Hshared, Hrouted. reflexivity.
Qed.

(** C5.  The metrics are optional.  The call adds to the sown variables
    exactly the three entries [activation_mean], [activation_stdev] and
    [activation_fraction_zero] of the collection [intermediates], each
    computed from the layer output it returns, when
    [cfg.record_internal_nn_metrics] is set, and nothing when it is not.
    Setting or clearing the flag leaves the returned array as it was, as
    long as the blocks built from the configuration compute the same. *)
Theorem metrics_recorded_on_request self inputs decoder_segment_ids
    decoder_positions deterministic model_mode dense_layer st :
  let call cfg :=
    DeepSeekDecoderLayer_call (with_config cfg self) inputs
      decoder_segment_ids decoder_positions deterministic model_mode
      dense_layer in
  let layer_output := output_of (evalState (call (config self)) st) in
  variables (execState (call (config self)) st) =
    variables st ++
    (if record_internal_nn_metrics (config self) then
       [{| sow_col := "intermediates"; sow_name := "activation_mean";
           sow_value := SownScalar (jnp_mean layer_output) |};
        {| sow_col := "intermediates"; sow_name := "activation_stdev";
           sow_value := SownScalar (jnp_std layer_output) |};
        {| sow_col := "intermediates";
           sow_name := "activation_fraction_zero";
           sow_value :=
             SownQuotient
               (true_divide (jnp_sum (jnp_eq_zero layer_output))
                            (jnp_size layer_output)) |}]
     else []) /\
  (forall b st',
      same_blocks
        self
        (with_config (with_record_internal_nn_metrics b (config self))
                     self) ->
      output_of
        (evalState
           (call (with_record_internal_nn_metrics b (config self))) st') =
      layer_output).
Proof.
  intros call layer_output.
  assert (Hself : with_config (config self) self = self)
    by (destruct self; reflexivity).
  split.
  - subst layer_output call. cbv beta. rewrite Hself.
    pose proof (call_run self inputs decoder_segment_ids decoder_positions
                  deterministic model_mode dense_layer st) as Hrun.
    pose proof (call_output self inputs decoder_segment_ids
                  decoder_positions deterministic model_mode dense_layer st)
      as Hout.
    cbv zeta in Hrun, Hout. unfold execState. rewrite Hout, Hrun.
    reflexivity.
  - intros b st' Hsame. subst layer_output call. cbv beta. rewrite Hself.
    symmetry. apply output_same_blocks; [reflexivity | reflexivity | exact Hsame].
Qed.

(** C7.  What is returned depends on [cfg.scan_layers] alone: the pair of
    the layer output and [None] when it is set, the layer output itself
    when it is not.  Setting or clearing the flag changes that shape and
    not the array, as long as the blocks built from the configuration
    compute the same. *)
Theorem returned_shape_by_scan_layers self inputs decoder_segment_ids
    decoder_positions deterministic model_mode dense_layer st :
  let call cfg :=
    DeepSeekDecoderLayer_call (with_config cfg self) inputs
      decoder_segment_ids decoder_positions deterministic model_mode
      dense_layer in
  let layer_output := output_of (evalState (call (config self)) st) in
  evalState (call (config self)) st =
    (if scan_layers (config self) then ReturnPair layer_output tt
     else ReturnArray layer_output) /\
  is_pair (evalState (call (config self)) st) = scan_layers (config self) /\
  (forall b st',
      same_blocks self
                  (with_config (with_scan_layers b (config self)) self) ->
      evalState (call (with_scan_layers b (config self))) st' =
      if b then ReturnPair layer_output tt else ReturnArray layer_output).
Proof.
  intros call layer_output.
  assert (Hself : with_config (config self) self = self)
    by (destruct self; reflexivity).
  assert (Hshape : forall s s0,
             evalState
               (DeepSeekDecoderLayer_call s inputs decoder_segment_ids
                  decoder_positions deterministic model_mode dense_layer)
               s0 =
             let out :=
               output_of
                 (evalState
                    (DeepSeekDecoderLayer_call s inputs decoder_segment_ids
                       decoder_positions deterministic model_mode
                       dense_layer) s0) in
             if scan_layers (config s) then ReturnPair out tt
             else ReturnArray out).
  { intros s s0.
    pose proof (call_value s inputs decoder_segment_ids decoder_positions
                  deterministic model_mode dense_layer s0) as Hval.
    cbv zeta in Hval |- *. rewrite Hval.
    destruct (scan_layers (config s)); reflexivity. }
  split; [|split].
  - subst layer_output call. cbv beta. rewrite Hself. apply Hshape.
  - subst call. cbv beta. rewrite Hself, Hshape. cbv zeta.
    destruct (scan_layers (config self)); reflexivity.
  - intros b st' Hsame. subst layer_output call. cbv beta.
    rewrite Hshape. cbv zeta. cbn [config with_config scan_layers
                                   with_scan_layers].
    rewrite Hself.
    rewrite (@output_same_blocks
               self (with_config (with_scan_layers b (config self)) self)
               inputs decoder_segment_ids decoder_positions deterministic
               model_mode dense_layer st st' eq_refl eq_refl Hsame).
    reflexivity.
Qed.

(** ** The arithmetic of the metrics *)

Unset Implicit Arguments.


Lemma wrap_int32_add (x y : Z) :
  wrap_int32 (x + wrap_int32 y) = wrap_int32 (x + y).
Proof.
  unfold wrap_int32.
  replace (x + ((y + 2 ^ 31) mod 2 ^ 32 - 2 ^ 31) + 2 ^ 31)
    with (x + (y + 2 ^ 31) mod 2 ^ 32) by ring.
  rewrite Zplus_mod_idemp_r. f_equal. f_equal. ring.
Qed.

(** *** Rounding to an integer *)
Section RoundHalfEven.
Variables (n d : Z).
Hypothesis (Hd : 0 < d).




End RoundHalfEven.

















Set Implicit Arguments.

(** ** The fraction of zero entries *)

Lemma jnp_sum_counts (A : Type) (p : A -> bool) (l : list A) :
  jnp_sum (List.map p l) = wrap_int32 (Z.of_nat (List.length (filter p l))).
Proof.
  induction l as [|a l IH]; [reflexivity|].
  cbn [List.map jnp_sum filter]. rewrite IH, wrap_int32_add.
  destruct (p a); cbn [List.length]; f_equal; lia.
Qed.


(** What the metrics block sows as [activation_fraction_zero]. *)
Lemma fraction_zero_sown self inputs decoder_segment_ids decoder_positions
    deterministic model_mode dense_layer st :
  record_internal_nn_metrics (config self) = true ->
  let call :=
    DeepSeekDecoderLayer_call self inputs decoder_segment_ids
      decoder_positions deterministic model_mode dense_layer in
  let layer_output := output_of (evalState call st) in
  sown_under "intermediates" "activation_fraction_zero"
             (variables (execState call st)) =
  sown_under "intermediates" "activation_fraction_zero" (variables st) ++
  [SownQuotient
     (true_divide
        (wrap_int32
           (Z.of_nat (List.length (filter eq_zero (entries layer_output)))))
        (Z.of_nat (List.length (entries layer_output))))].
Proof.
  intros Hflag call layer_output.
  pose proof (call_run self inputs decoder_segment_ids decoder_positions
                deterministic model_mode dense_layer st) as Hrun.
  pose proof (call_output self inputs decoder_segment_ids
                decoder_positions deterministic model_mode dense_layer st)
    as Hout.
  cbv zeta in Hrun, Hout. subst layer_output call.
  unfold execState. rewrite Hout, Hrun, Hflag. cbn [snd variables].
  rewrite sown_under_app. f_equal.
  unfold jnp_eq_zero, jnp_size. rewrite jnp_sum_counts. reflexivity.
Qed.


(** ** The two MLP blocks *)

(** X4.  The dense block and the shared-experts block are built with the
    same keyword arguments but for [intermediate_dim]; they are the same
    block exactly when [mlp_dim * num_experts_per_tok] is zero. *)
Theorem dense_and_shared_blocks self :
  mlp_activations_arg (dense_mlp self) = mlp_activations_arg (shared_mlp self)
  /\ mlp_intermediate_dropout_rate (dense_mlp self) =
       mlp_intermediate_dropout_rate (shared_mlp self)
  /\ mlp_dtype (dense_mlp self) = mlp_dtype (shared_mlp self)
  /\ mlp_weight_dtype (dense_mlp self) = mlp_weight_dtype (shared_mlp self)
  /\ mlp_name (dense_mlp self) = mlp_name (shared_mlp self)
  /\ mlp_config (dense_mlp self) = mlp_config (shared_mlp self)
  /\ mlp_quant (dense_mlp self) = mlp_quant (shared_mlp self)
  /\ (dense_mlp self = shared_mlp self <->
       mlp_dim (config self) * num_experts_per_tok (config self) = 0).
Proof.
  repeat (split; [reflexivity|]).
  split.
  - intros Heq. apply (f_equal mlp_intermediate_dim) in Heq.
    cbn in Heq. lia.
  - intros Hzero. unfold dense_mlp, shared_mlp. cbv zeta. f_equal. lia.
Qed.

(** X5.  Without shared experts ([num_shared_experts = 0]) the mixture
    branch still builds and applies the shared block, with intermediate
    dimension 0, and the dense block has [mlp_dim * num_experts_per_tok]. *)
Theorem no_shared_experts self inputs decoder_segment_ids decoder_positions
    deterministic model_mode st :
  num_shared_experts (config self) = 0 ->
  mlp_widths
    (trace (execState
              (DeepSeekDecoderLayer_call self inputs decoder_segment_ids
                 decoder_positions deterministic model_mode false) st)) =
    mlp_widths (trace st) ++ [0] /\
  mlp_widths
    (trace (execState
              (DeepSeekDecoderLayer_call self inputs decoder_segment_ids
                 decoder_positions deterministic model_mode true) st)) =
    mlp_widths (trace st) ++
    [mlp_dim (config self) * num_experts_per_tok (config self)].
Proof.
  intros Hnone. split.
  - destruct (call_trace self inputs decoder_segment_ids decoder_positions
                deterministic model_mode false st) as (events & -> & ->).
    rewrite mlp_widths_app. cbn. rewrite Hnone, Z.mul_0_r. reflexivity.
  - destruct (call_trace self inputs decoder_segment_ids decoder_positions
                deterministic model_mode true st) as (events & -> & ->).
    rewrite mlp_widths_app. cbn. rewrite Hnone, Z.add_0_r. reflexivity.
Qed.

(** X6.  For a configuration without negative sizes the shared block is
    no wider than the dense block, and strictly narrower once [mlp_dim]
    and [num_experts_per_tok] are positive. *)
Theorem widths_ordered self :
  0 <= mlp_dim (config self) ->
  0 <= num_experts_per_tok (config self) ->
  0 <= num_shared_experts (config self) ->
  0 <= mlp_intermediate_dim (shared_mlp self) <=
    mlp_intermediate_dim (dense_mlp self) /\
  (0 < mlp_dim (config self) -> 0 < num_experts_per_tok (config self) ->
   mlp_intermediate_dim (shared_mlp self) <
   mlp_intermediate_dim (dense_mlp self)).
Proof.
  intros Hdim Hk Hs. cbn.
  rewrite Z.mul_add_distr_l.
  pose proof (Z.mul_nonneg_nonneg _ _ Hdim Hk).
  pose proof (Z.mul_nonneg_nonneg _ _ Hdim Hs).
  split; [lia|].
  intros Hdim' Hk'. pose proof (Z.mul_pos_pos _ _ Hdim' Hk'). lia.
Qed.

(** X7.  [dense_layer] is read only at the feed-forward block: the two
    branches add the same eight events first (constraints, tag, norms and
    attention), and then apply their first MLP block to the same array. *)
Theorem branches_share_prefix self inputs decoder_segment_ids
    decoder_positions deterministic model_mode st :
  exists before hidden_states after_dense after_mixture,
    trace (execState
             (DeepSeekDecoderLayer_call self inputs decoder_segment_ids
                decoder_positions deterministic model_mode true) st) =
      trace st ++ before ++
      E_MlpBlock (dense_mlp self) hidden_states deterministic ::
      after_dense /\
    trace (execState
             (DeepSeekDecoderLayer_call self inputs decoder_segment_ids
                decoder_positions deterministic model_mode false) st) =
      trace st ++ before ++
      E_MlpBlock (shared_mlp self) hidden_states deterministic ::
      after_mixture /\
    List.length before = 8%nat /\
    List.length (rmsnorm_calls before) = 2%nat /\
    List.length (block_calls before) = 1%nat.
Proof.
  destruct (call_trace self inputs decoder_segment_ids decoder_positions
              deterministic model_mode true st) as (dense & -> & ->).
  destruct (call_trace self inputs decoder_segment_ids decoder_positions
              deterministic model_mode false st) as (mixture & -> & ->).
  do 4 eexists. split; [|split; [|split; [|split]]].
  - apply (f_equal (app (trace st))).
    refine (f_equal2 (@app Event) eq_refl _). reflexivity.
  - apply (f_equal (app (trace st))).
    refine (f_equal2 (@app Event) eq_refl _). reflexivity.
  - reflexivity.
  - reflexivity.
  - reflexivity.
Qed.

(** ** What reaches the output *)

(** X8.  [decoder_positions], [decoder_segment_ids] and [model_mode] reach
    the result through the attention block alone: two calls for which the
    attention returns the same array on [lnx] return the same value. *)
Theorem side_inputs_reach_attention_only self inputs decoder_segment_ids
    decoder_segment_ids' decoder_positions decoder_positions'
    model_mode model_mode' deterministic dense_layer st st' :
  let lnx :=
    constrained
      (RMSNorm (pre_self_attention_layer_norm (config self))
               (named (constrained inputs activation_axes)
                      "decoder_layer_input"))
      activation_axes in
  MLA (attention_layer self) lnx lnx decoder_positions decoder_segment_ids
      deterministic model_mode =
  MLA (attention_layer self) lnx lnx decoder_positions' decoder_segment_ids'
      deterministic model_mode' ->
  evalState
    (DeepSeekDecoderLayer_call self inputs decoder_segment_ids
       decoder_positions deterministic model_mode dense_layer) st =
  evalState
    (DeepSeekDecoderLayer_call self inputs decoder_segment_ids'
       decoder_positions' deterministic model_mode' dense_layer) st'.
Proof.
  intros lnx Hattn.
  pose proof (call_value self inputs decoder_segment_ids decoder_positions
                deterministic model_mode dense_layer st) as H.
  pose proof (call_value self inputs decoder_segment_ids' decoder_positions'
                deterministic model_mode' dense_layer st') as H'.
  cbv zeta in H, H'. rewrite H, H'. clear H H'.
  fold lnx. rewrite Hattn. reflexivity.
Qed.

(** ** The fraction of zero entries at its ends *)



(** X10.  With the metrics on and a layer output without entries, the
    value sown as [activation_fraction_zero] is [0 / 0]: not a number. *)
Theorem fraction_zero_of_empty_output self inputs decoder_segment_ids
    decoder_positions deterministic model_mode dense_layer st :
  record_internal_nn_metrics (config self) = true ->
  let call :=
    DeepSeekDecoderLayer_call self inputs decoder_segment_ids
      decoder_positions deterministic model_mode dense_layer in
  entries (output_of (evalState call st)) = [] ->
  sown_under "intermediates" "activation_fraction_zero"
             (variables (execState call st)) =
  sown_under "intermediates" "activation_fraction_zero" (variables st) ++
  [SownQuotient NotANumber].
Proof.
  intros Hflag call Hempty.
  pose proof (fraction_zero_sown self inputs decoder_segment_ids
                decoder_positions deterministic model_mode dense_layer st
                Hflag) as Hsown.
  cbv zeta in Hsown. fold call in Hsown.
  rewrite Hsown, Hempty. reflexivity.
Qed.


(** [float32] cannot tell [2 ^ 24] zero entries among [2 ^ 24 + 1] from
    all of them. *)
Example fraction_rounds_up_to_one :
  true_divide (2 ^ 24) (2 ^ 24 + 1) = Finite 1.
Proof. vm_compute. reflexivity. Qed.

End Properties.

(** ** The router's second output *)

Section Router.
Context {T : Types} {F : Framework}.

(** X9.  The second component of what [MoeBlock] returns is dropped: with
    a router that returns the same arrays and anything else beside them,
    the call returns the same value, records the same trace and sows the
    same variables. *)
Theorem router_second_output_unused
    (f : MoeBlockArgs -> Tensor -> Tensor * MoeAux)
    self inputs decoder_segment_ids decoder_positions deterministic
    model_mode dense_layer st :
  (forall args x, fst (f args x) = fst (MoeBlock args x)) ->
  runState
    (@DeepSeekDecoderLayer_call T (with_MoeBlock f) self inputs
       decoder_segment_ids decoder_positions deterministic model_mode
       dense_layer) st =
  runState
    (DeepSeekDecoderLayer_call self inputs decoder_segment_ids
       decoder_positions deterministic model_mode dense_layer) st.
Proof.
  intros Hfst.
  pose proof (@call_run T (with_MoeBlock f) self inputs decoder_segment_ids
                decoder_positions deterministic model_mode dense_layer st)
    as H.
  pose proof (@call_run T F self inputs decoder_segment_ids
                decoder_positions deterministic model_mode dense_layer st)
    as H'.
  cbv zeta in H, H'. rewrite H, H'. clear H H'.
  unfold jnp_eq_zero, jnp_size, routed_moe, attention_layer, with_MoeBlock.
  cbn. rewrite !Hfst. reflexivity.
Qed.

End Router.

(** * The layer on the small instance *)

Module ToyRuns.
Import Toy.

Example dense_run_returns :
  fst (run true) = ReturnArray [21; 0; -19; 20].
Proof. vm_compute. reflexivity. Qed.

Example mixture_run_returns :
  fst (run false) = ReturnArray [13; 0; -11; 12].
Proof. vm_compute. reflexivity. Qed.

Example dense_run_constraints :
  List.map fst (constraint_calls (trace (snd (run true)))) =
  [[3; 0; -1; 2]; [1; 0; -1; 1]; [3; 0; -3; 3]; [1; 0; -1; 1];
   [15; 0; -15; 15]; [21; 0; -19; 20]].
Proof. vm_compute. reflexivity. Qed.

Example mixture_run_constraints :
  List.map fst (constraint_calls (trace (snd (run false)))) =
  [[3; 0; -1; 2]; [1; 0; -1; 1]; [3; 0; -3; 3]; [1; 0; -1; 1];
   [5; 0; -5; 5]; [2; 0; -2; 2]; [7; 0; -7; 7]; [13; 0; -11; 12]].
Proof. vm_compute. reflexivity. Qed.

(** The first residual sum, [intermediate_inputs], is not among the
    constrained arrays: it goes to the second norm as it is. *)
Example residual_sum_goes_unconstrained :
  List.map snd (rmsnorm_calls (trace (snd (run true)))) =
    [[3; 0; -1; 2]; [6; 0; -4; 5]] /\
  ~ In [6; 0; -4; 5]
       (List.map fst (constraint_calls (trace (snd (run true))))).
Proof.
  split; [vm_compute; reflexivity|].
  rewrite dense_run_constraints. cbn [In].
  intros H. repeat (destruct H as [H|H]; [discriminate H|]). exact H.
Qed.

(** Not every array that flows between the modules is under a sharding
    constraint: in either branch the second norm receives the residual sum
    [[6; 0; -4; 5]], which no constraint of the run returned. *)
Lemma residual_sum_escapes_constraint :
  ~ Forall (under_constraint (trace (snd (run true))))
           (module_inputs (trace (snd (run true)))) /\
  ~ Forall (under_constraint (trace (snd (run false))))
           (module_inputs (trace (snd (run false)))).
Proof.
  split; intros Hall; rewrite Forall_forall in Hall;
    (destruct (Hall [6; 0; -4; 5]) as (y & axes & Hin & Hx);
     [vm_compute; tauto|]);
    (assert (Hy : y = [6; 0; -4; 5])
       by (destruct Hx as [Hx | (name & Hx)]; symmetry; exact Hx));
    subst y; vm_compute in Hin;
    repeat (destruct Hin as [Hin | Hin]; [discriminate Hin|]);
    exact Hin.
Qed.

Example dense_run_sown :
  List.map (fun e => (sow_name e, sow_value e)) (variables (snd (run true))) =
  [("activation_mean", SownScalar 5%Z);
   ("activation_stdev", SownScalar 0%Z);
   ("activation_fraction_zero", SownQuotient (Finite (1 # 4)))].
Proof. vm_compute. reflexivity. Qed.

Lemma zip_add_comm (a b : list Z) : zip_add a b = zip_add b a.
Proof.
  revert b. induction a as [|x a IH]; intros [|y b]; cbn; try reflexivity.
  rewrite IH, Z.add_comm. reflexivity.
Qed.

(** The blocks of the small instance read none of the two flags. *)
Lemma blocks_ignore_metrics_flag (b : bool) :
  same_blocks layer
    (with_config (with_record_internal_nn_metrics b (config layer)) layer).
Proof. repeat split. Qed.

Lemma blocks_ignore_scan_flag (b : bool) :
  same_blocks layer (with_config (with_scan_layers b (config layer)) layer).
Proof. repeat split. Qed.

Lemma residual_connections_witness :
  output_of (fst (run false)) =
  zip_add (zip_add [3; 0; -1; 2] [3; 0; -3; 3]) [7; 0; -7; 7].
Proof.
  pose proof (@residual_connections types framework layer inputs None
                [0; 1; 2; 3] true "train" false empty_store) as H.
  cbv zeta in H. destruct H as (_ & _ & H).
  exact (proj2 (H (fun _ _ => eq_refl) (fun _ _ => eq_refl)) zip_add_comm).
Defined.

Lemma metrics_recorded_on_request_witness :
  output_of
    (evalState
       (DeepSeekDecoderLayer_call
          (with_config (with_record_internal_nn_metrics false cfg) layer)
          inputs None [0; 1; 2; 3] true "train" true)
       empty_store) =
  [21; 0; -19; 20].
Proof.
  exact (proj2 (@metrics_recorded_on_request types framework layer inputs
                  None [0; 1; 2; 3] true "train" true empty_store)
               false empty_store (blocks_ignore_metrics_flag false)).
Defined.

Lemma returned_shape_by_scan_layers_witness :
  evalState
    (DeepSeekDecoderLayer_call
       (with_config (with_scan_layers true cfg) layer)
       inputs None [0; 1; 2; 3] true "train" false)
    empty_store =
  ReturnPair [13; 0; -11; 12] tt.
Proof.
  exact (proj2 (proj2 (@returned_shape_by_scan_layers types framework layer
                         inputs None [0; 1; 2; 3] true "train" false
                         empty_store))
               true empty_store (blocks_ignore_scan_flag true)).
Defined.


End ToyRuns.

(** * Edge cases on the small instances *)

Module ToyEdges.
Import Toy.

Definition call_on (x : list Z) (dense_layer : bool) : M Returned :=
  DeepSeekDecoderLayer_call layer x None [0; 1; 2; 3] true "train"
                            dense_layer.

Example empty_input_returns :
  evalState (call_on [] true) empty_store = ReturnArray [].
Proof. vm_compute. reflexivity. Qed.

Lemma widths_ordered_witness : 0 <= 5 <= 15 /\ 5 < 15.
Proof.
  destruct (@widths_ordered types layer) as [Hle Hlt];
    [discriminate | discriminate | discriminate |].
  split; [exact Hle | apply Hlt; reflexivity].
Defined.

Lemma side_inputs_reach_attention_only_witness :
  evalState
    (DeepSeekDecoderLayer_call layer inputs None [0; 1; 2; 3] true
                               "train" true)
    empty_store =
  evalState
    (DeepSeekDecoderLayer_call layer inputs (Some [1; 1; 2; 2])
                               [4; 5; 6; 7] true "autoregressive" true)
    empty_store.
Proof.
  exact (@side_inputs_reach_attention_only types framework layer
           inputs None (Some [1; 1; 2; 2]) [0; 1; 2; 3] [4; 5; 6; 7]
           "train" "autoregressive" true true empty_store empty_store
           eq_refl).
Defined.

Lemma fraction_zero_of_empty_output_witness :
  sown_under "intermediates" "activation_fraction_zero"
             (variables (execState (call_on [] true) empty_store)) =
  [SownQuotient NotANumber].
Proof.
  exact (@fraction_zero_of_empty_output types framework layer []
           None [0; 1; 2; 3] true "train" true empty_store eq_refl eq_refl).
Defined.


Example all_zero_output_sows_one :
  sown_under "intermediates" "activation_fraction_zero"
             (variables (execState (call_on [0; 0; 0] true) empty_store)) =
  [SownQuotient (Finite 1)].
Proof. vm_compute. reflexivity. Qed.

(** *** Beyond exact quotients and beyond [int32] *)






End ToyEdges.

Module ToyAuxEdges.
Import ToyAux.

Definition call_on (dense_layer : bool) : M Returned :=
  DeepSeekDecoderLayer_call layer Toy.inputs None [0; 1; 2; 3] true "train"
                            dense_layer.

Example scanned_layer_returns_pair :
  evalState (call_on false) empty_store = ReturnPair [8; 0; -6; 7] tt.
Proof. vm_compute. reflexivity. Qed.

Lemma no_shared_experts_witness :
  mlp_widths (trace (execState (call_on false) empty_store)) = [0] /\
  mlp_widths (trace (execState (call_on true) empty_store)) = [10].
Proof.
  exact (@no_shared_experts types framework layer Toy.inputs None
           [0; 1; 2; 3] true "train" empty_store eq_refl).
Defined.

Lemma router_second_output_unused_witness :
  runState
    (@DeepSeekDecoderLayer_call types (with_MoeBlock other_router) layer
       Toy.inputs None [0; 1; 2; 3] true "train" false)
    empty_store =
  runState (call_on false) empty_store.
Proof.
  exact (@router_second_output_unused types framework other_router layer
           Toy.inputs None [0; 1; 2; 3] true "train" false empty_store
           (fun _ _ => eq_refl)).
Defined.

End ToyAuxEdges.
